(** * FPSLimiter.h: the frame-pacing limiter of gamescope

    A shallow embedding of [gamescope::CFPSLimiter] (src/FPSLimiter.h) and
    the properties of its wake-up arithmetic, its armed flag and its queue
    of held buffers.

    Conventions of the embedding:
    - [uint64_t] and [uint32_t] values are integers of [Z]; every C++
      operation that can wrap is written with [wrap64] or [wrap32];
    - an [Rc<CVulkanTexture>] is a pointer: textures live in a heap that
      maps a pointer to the timestamp record of the texture, so that two
      handles of one texture share one record;
    - a method is a state transformer on [World] (the limiter object and
      the texture heap); each method body runs under the mutexes it takes,
      so one call is one step;
    - the two calls that leave the class, [get_time_in_nanos()] and
      [GetVBlankTimer().CalcNextWakeupTime( true )], are made once per
      computed schedule; their results are arguments of the method.

    [OnPollIn] calls [ArmNextFrame] while it holds [m_ScheduleMutex], which
    [ArmNextFrame] takes again: its embedding says where the call ends
    ([Outcome]), and the sequences of calls leave it out. *)

From Stdlib Require Import ZArith List Lia.
From stdpp Require Import base gmap list.

Local Open Scope Z_scope.

(** ** Machine integers *)

Definition wrap64 (z : Z) : Z := z mod 2 ^ 64.
Definition wrap32 (z : Z) : Z := z mod 2 ^ 32.

Definition is_uint64 (z : Z) : Prop := 0 <= z < 2 ^ 64.

(** ** Data *)

(** [struct FPSLimitScheduleTime_t] *)
Record FPSLimitScheduleTime_t : Type := mkFPSLimitScheduleTime {
  ulTargetVBlank : Z;
  ulTargetLatch : Z;
  ulScheduledWakeupPoint : Z
}.

Definition FPSLimitScheduleTime_zero : FPSLimitScheduleTime_t :=
  {| ulTargetVBlank := 0; ulTargetLatch := 0; ulScheduledWakeupPoint := 0 |}.

Module VBlank.
(** Modelled from the spec: [VBlankScheduleTime] is declared in
    vblankmanager.hpp, which is not part of the sources at hand.  The
    refresh oracle answers with a refresh time, a latch deadline and a
    scheduled wake-up time; FPSLimiter.h reads [ulTargetVBlank] and
    [ulScheduledWakeupPoint] of it. *)
Record ScheduleTime : Type := mkScheduleTime {
  ulTargetVBlank : Z;
  ulTargetLatch : Z;
  ulScheduledWakeupPoint : Z
}.

Definition with_ulTargetLatch (x : Z) (o : ScheduleTime) : ScheduleTime :=
  {| ulTargetVBlank := ulTargetVBlank o;
     ulTargetLatch := x;
     ulScheduledWakeupPoint := ulScheduledWakeupPoint o |}.
End VBlank.

(** Modelled from the spec: the timestamp record of a [CVulkanTexture]
    (rendervulkan.hpp is not part of the sources at hand).  The record has
    the three members the designated initialiser of [MarkFrame] names; the
    limiter reads it as [m_BufferTimestamp] and assigns it as
    [m_oBufferTimestamp], under the one mutex [m_mutBufferTimestamp]: one
    record per texture. *)
Record BufferTimestamp_t : Type := mkBufferTimestamp {
  ulCPUTime : Z;
  ulGPUTime : Z;
  ulReleaseTime : Z
}.

Definition BufferTimestamp_zero : BufferTimestamp_t :=
  {| ulCPUTime := 0; ulGPUTime := 0; ulReleaseTime := 0 |}.

(** An [Rc<CVulkanTexture>]: the address of the texture. *)
Definition TexturePtr : Type := positive.

(** [class CFPSLimiter : public ITimerWaitable].  [m_ulLastGPUTimestamp]
    and [m_ulLastRelease] are read by [CalcNextWakeupTime] and declared
    nowhere in the class; they are members by their names and nothing in
    the file assigns them.  [timer_deadline] is the state of the base class:
    the deadline of the last [ITimerWaitable::ArmTimer], if any. *)
Record CFPSLimiter : Type := mkCFPSLimiter {
  m_bArmed : bool;
  m_bRunning : bool;
  m_uTotalBuffers : Z;
  m_uAcquiredBuffers : Z;
  m_pHeldBuffers : list TexturePtr;
  m_TimerFDSchedule : FPSLimitScheduleTime_t;
  m_ulLastGPUTimestamp : Z;
  m_ulLastRelease : Z;
  timer_deadline : option Z
}.

Record World : Type := mkWorld {
  limiter : CFPSLimiter;
  textures : gmap positive BufferTimestamp_t
}.

(** The default member initialisers of the class; the two undeclared
    members have no initialiser to read, so they are parameters. *)
Definition CFPSLimiter_init (ulLastGPUTimestamp ulLastRelease : Z) : CFPSLimiter :=
  {| m_bArmed := false;
     m_bRunning := true;
     m_uTotalBuffers := 1;
     m_uAcquiredBuffers := 1;
     m_pHeldBuffers := [];
     m_TimerFDSchedule := FPSLimitScheduleTime_zero;
     m_ulLastGPUTimestamp := ulLastGPUTimestamp;
     m_ulLastRelease := ulLastRelease;
     timer_deadline := None |}.

(** Field updates. *)
Definition set_m_bArmed (b : bool) (l : CFPSLimiter) : CFPSLimiter :=
  {| m_bArmed := b;
     m_bRunning := m_bRunning l;
     m_uTotalBuffers := m_uTotalBuffers l;
     m_uAcquiredBuffers := m_uAcquiredBuffers l;
     m_pHeldBuffers := m_pHeldBuffers l;
     m_TimerFDSchedule := m_TimerFDSchedule l;
     m_ulLastGPUTimestamp := m_ulLastGPUTimestamp l;
     m_ulLastRelease := m_ulLastRelease l;
     timer_deadline := timer_deadline l |}.

Definition set_m_uTotalBuffers (n : Z) (l : CFPSLimiter) : CFPSLimiter :=
  {| m_bArmed := m_bArmed l;
     m_bRunning := m_bRunning l;
     m_uTotalBuffers := n;
     m_uAcquiredBuffers := m_uAcquiredBuffers l;
     m_pHeldBuffers := m_pHeldBuffers l;
     m_TimerFDSchedule := m_TimerFDSchedule l;
     m_ulLastGPUTimestamp := m_ulLastGPUTimestamp l;
     m_ulLastRelease := m_ulLastRelease l;
     timer_deadline := timer_deadline l |}.

Definition set_m_uAcquiredBuffers (n : Z) (l : CFPSLimiter) : CFPSLimiter :=
  {| m_bArmed := m_bArmed l;
     m_bRunning := m_bRunning l;
     m_uTotalBuffers := m_uTotalBuffers l;
     m_uAcquiredBuffers := n;
     m_pHeldBuffers := m_pHeldBuffers l;
     m_TimerFDSchedule := m_TimerFDSchedule l;
     m_ulLastGPUTimestamp := m_ulLastGPUTimestamp l;
     m_ulLastRelease := m_ulLastRelease l;
     timer_deadline := timer_deadline l |}.

Definition set_m_pHeldBuffers (q : list TexturePtr) (l : CFPSLimiter) : CFPSLimiter :=
  {| m_bArmed := m_bArmed l;
     m_bRunning := m_bRunning l;
     m_uTotalBuffers := m_uTotalBuffers l;
     m_uAcquiredBuffers := m_uAcquiredBuffers l;
     m_pHeldBuffers := q;
     m_TimerFDSchedule := m_TimerFDSchedule l;
     m_ulLastGPUTimestamp := m_ulLastGPUTimestamp l;
     m_ulLastRelease := m_ulLastRelease l;
     timer_deadline := timer_deadline l |}.

Definition set_m_TimerFDSchedule (t : FPSLimitScheduleTime_t) (l : CFPSLimiter) : CFPSLimiter :=
  {| m_bArmed := m_bArmed l;
     m_bRunning := m_bRunning l;
     m_uTotalBuffers := m_uTotalBuffers l;
     m_uAcquiredBuffers := m_uAcquiredBuffers l;
     m_pHeldBuffers := m_pHeldBuffers l;
     m_TimerFDSchedule := t;
     m_ulLastGPUTimestamp := m_ulLastGPUTimestamp l;
     m_ulLastRelease := m_ulLastRelease l;
     timer_deadline := timer_deadline l |}.

Definition set_timer_deadline (d : option Z) (l : CFPSLimiter) : CFPSLimiter :=
  {| m_bArmed := m_bArmed l;
     m_bRunning := m_bRunning l;
     m_uTotalBuffers := m_uTotalBuffers l;
     m_uAcquiredBuffers := m_uAcquiredBuffers l;
     m_pHeldBuffers := m_pHeldBuffers l;
     m_TimerFDSchedule := m_TimerFDSchedule l;
     m_ulLastGPUTimestamp := m_ulLastGPUTimestamp l;
     m_ulLastRelease := m_ulLastRelease l;
     timer_deadline := d |}.

(** ** The state monad of the methods *)

Definition M (A : Type) : Type := World -> A * World.

Definition ret {A : Type} (a : A) : M A := fun w => (a, w).

Definition bind {A B : Type} (m : M A) (k : A -> M B) : M B :=
  fun w => let (a, w') := m w in k a w'.

Declare Scope limiter_scope.
Delimit Scope limiter_scope with lim.
Notation "x <~ m ;; k" := (bind m (fun x => k))
  (at level 20, m at level 99, k at level 200, only parsing) : limiter_scope.
Local Open Scope limiter_scope.

(** [this]: the members of the limiter. *)
Definition this : M CFPSLimiter := fun w => (limiter w, w).

Definition modify (f : CFPSLimiter -> CFPSLimiter) : M unit :=
  fun w => (tt, {| limiter := f (limiter w); textures := textures w |}).

(** [pTexture->m_BufferTimestamp]; a texture the heap has no entry for has
    the record of a texture that was never marked. *)
Definition timestamp_of (h : gmap positive BufferTimestamp_t) (p : TexturePtr)
  : BufferTimestamp_t :=
  default BufferTimestamp_zero (h !! p).

Definition read_timestamp (p : TexturePtr) : M BufferTimestamp_t :=
  fun w => (timestamp_of (textures w) p, w).

Definition write_timestamp (p : TexturePtr) (t : BufferTimestamp_t) : M unit :=
  fun w => (tt, {| limiter := limiter w; textures := <[p := t]> (textures w) |}).

(** [ITimerWaitable::ArmTimer( ulDeadline )] *)
Definition ArmTimer (ulDeadline : Z) : M unit :=
  modify (set_timer_deadline (Some ulDeadline)).

(** ** The methods *)

(** [CFPSLimiter::CalcNextWakeupTime].  [bPreemptive] is not read: the
    vblank timer is always called with [true].  [nextVBlankSchedule] is the
    answer of that call and [ulNow] the reading of [get_time_in_nanos()]. *)
Definition CalcNextWakeupTime (bPreemptive : bool)
    (nextVBlankSchedule : VBlank.ScheduleTime) (ulNow : Z)
  : M FPSLimitScheduleTime_t :=
  l <~ this ;;
  let ulDelta := wrap64 (m_ulLastGPUTimestamp l - m_ulLastRelease l) in
  let ulNextReleaseTime :=
    wrap64 (VBlank.ulScheduledWakeupPoint nextVBlankSchedule - ulDelta) in
  let ulSloppyNow := wrap64 (ulNow + 500000) in
  let ulNextReleaseTime :=
    if ulNextReleaseTime >? ulSloppyNow then ulNow else ulNextReleaseTime in
  ret {| ulTargetVBlank := VBlank.ulTargetVBlank nextVBlankSchedule;
         ulTargetLatch := VBlank.ulScheduledWakeupPoint nextVBlankSchedule;
         ulScheduledWakeupPoint := ulNextReleaseTime |}.

(** [CFPSLimiter::ArmNextFrame]; [notify_all] changes no state. *)
Definition ArmNextFrame (bPreemptive : bool)
    (nextVBlankSchedule : VBlank.ScheduleTime) (ulNow : Z) : M unit :=
  l <~ this ;;
  if bPreemptive && m_bArmed l then ret tt
  else
    _ <~ modify (set_m_bArmed true) ;;
    sched <~ CalcNextWakeupTime bPreemptive nextVBlankSchedule ulNow ;;
    _ <~ modify (set_m_TimerFDSchedule sched) ;;
    ArmTimer (ulScheduledWakeupPoint sched).

(** [CFPSLimiter::HoldBuffer]; the branch of the warning is empty. *)
Definition HoldBuffer (pTexture : TexturePtr) : M unit :=
  _ <~ modify (fun l => set_m_pHeldBuffers (m_pHeldBuffers l ++ [pTexture]) l) ;;
  l <~ this ;;
  let uNewTotalAcquiredBuffers := wrap32 (m_uAcquiredBuffers l + 1) in
  _ <~ modify (set_m_uAcquiredBuffers uNewTotalAcquiredBuffers) ;;
  if uNewTotalAcquiredBuffers >? m_uTotalBuffers l then ret tt else ret tt.

(** [CFPSLimiter::ReleaseAllBuffers] *)
Definition ReleaseAllBuffers : M Z :=
  _ <~ modify (set_m_pHeldBuffers []) ;;
  l <~ this ;;
  let uOldTotalAcquiredBuffers := m_uAcquiredBuffers l in
  _ <~ modify (set_m_uAcquiredBuffers 0) ;;
  ret uOldTotalAcquiredBuffers.

(** [CFPSLimiter::ReleaseOldestBuffer].  The block between the test and the
    [erase] takes the mutex of the texture and starts an assignment to
    [m_pHeldBuffers[0]->m_BufferTimestamp] that has no right-hand side: no
    value is given, and [get_time_in_nanos()] is not called, so the block
    stores nothing. *)
Definition ReleaseOldestBuffer : M Z :=
  l <~ this ;;
  match m_pHeldBuffers l with
  | [] => ret 0
  | _ :: rest =>
      _ <~ modify (set_m_pHeldBuffers rest) ;;
      let uOldTotalAcquiredBuffers := m_uAcquiredBuffers l in
      _ <~ modify (set_m_uAcquiredBuffers (wrap32 (m_uAcquiredBuffers l - 1))) ;;
      ret uOldTotalAcquiredBuffers
  end.

(** [CFPSLimiter::SetTotalBuffers] *)
Definition SetTotalBuffers (uTotalBuffers : Z) : M unit :=
  _ <~ modify (set_m_uTotalBuffers uTotalBuffers) ;;
  _ <~ ReleaseAllBuffers ;;
  ret tt.

(** The local [ulDelta] of [MarkFrame] when the locked block ends. *)
Definition MarkFrame_ulDelta (ulReleaseTime ulGPUTimestampNanos : Z) : Z :=
  let ulDelta := 0 in
  if ulReleaseTime =? 0 then ulDelta
  else wrap64 (ulGPUTimestampNanos - ulDelta).

(** [CFPSLimiter::MarkFrame]; nothing reads [ulDelta] after the block. *)
Definition MarkFrame (pTexture : TexturePtr)
    (ulCPUTimestampNanos ulGPUTimestampNanos : Z) (bReArmTimer : bool)
    (nextVBlankSchedule : VBlank.ScheduleTime) (ulNow : Z) : M unit :=
  stamp <~ read_timestamp pTexture ;;
  let ulReleaseTime := ulReleaseTime stamp in
  let ulDelta := MarkFrame_ulDelta ulReleaseTime ulGPUTimestampNanos in
  _ <~ write_timestamp pTexture
         {| ulCPUTime := ulCPUTimestampNanos;
            ulGPUTime := ulGPUTimestampNanos;
            ulReleaseTime := ulReleaseTime |} ;;
  _ <~ HoldBuffer pTexture ;;
  if bReArmTimer then ArmNextFrame false nextVBlankSchedule ulNow
  else ret tt.

(** ** Runs of calls, for the properties of sequences *)

Inductive Call : Type :=
  | CallHoldBuffer (pTexture : TexturePtr)
  | CallReleaseOldestBuffer
  | CallReleaseAllBuffers
  | CallSetTotalBuffers (uTotalBuffers : Z)
  | CallMarkFrame (pTexture : TexturePtr)
      (ulCPUTimestampNanos ulGPUTimestampNanos : Z) (bReArmTimer : bool)
      (nextVBlankSchedule : VBlank.ScheduleTime) (ulNow : Z).

Definition step (c : Call) (w : World) : World :=
  match c with
  | CallHoldBuffer p => snd (HoldBuffer p w)
  | CallReleaseOldestBuffer => snd (ReleaseOldestBuffer w)
  | CallReleaseAllBuffers => snd (ReleaseAllBuffers w)
  | CallSetTotalBuffers n => snd (SetTotalBuffers n w)
  | CallMarkFrame p cpu gpu rearm o now => snd (MarkFrame p cpu gpu rearm o now w)
  end.

Fixpoint run (cs : list Call) (w : World) : World :=
  match cs with
  | [] => w
  | c :: cs' => run cs' (step c w)
  end.

(** The calls that empty the queue. *)
Definition resets (c : Call) : bool :=
  match c with
  | CallReleaseAllBuffers | CallSetTotalBuffers _ => true
  | _ => false
  end.

(** What a call hands to the queue, and what it takes out of it: the
    buffers that are in [m_pHeldBuffers] before the call and are erased or
    cleared by it, in the order of the queue. *)
Definition submitted_by (c : Call) : list TexturePtr :=
  match c with
  | CallHoldBuffer p => [p]
  | CallMarkFrame p _ _ _ _ _ => [p]
  | _ => []
  end.

Definition released_by (c : Call) (w : World) : list TexturePtr :=
  match c with
  | CallReleaseOldestBuffer => take 1 (m_pHeldBuffers (limiter w))
  | CallReleaseAllBuffers | CallSetTotalBuffers _ => m_pHeldBuffers (limiter w)
  | _ => []
  end.

Fixpoint submitted (cs : list Call) : list TexturePtr :=
  match cs with
  | [] => []
  | c :: cs' => submitted_by c ++ submitted cs'
  end.

Fixpoint released (cs : list Call) (w : World) : list TexturePtr :=
  match cs with
  | [] => []
  | c :: cs' => released_by c w ++ released cs' (step c w)
  end.

(** The held-buffer counter is the length of the queue plus [d], in
    [uint32_t]. *)
Definition acquired_offset (d : Z) (l : CFPSLimiter) : Prop :=
  m_uAcquiredBuffers l = wrap32 (Z.of_nat (length (m_pHeldBuffers l)) + d).

(** The states of the spec's scenario: a fresh limiter whose two
    undeclared members hold the given completion and release times. *)
Definition scenario_world : World :=
  {| limiter := CFPSLimiter_init 5000000 3000000; textures := ∅ |}.

Definition scenario_oracle : VBlank.ScheduleTime :=
  {| VBlank.ulTargetVBlank := 17000000;
     VBlank.ulTargetLatch := 16666666;
     VBlank.ulScheduledWakeupPoint := 16666666 |}.

(** A limiter that holds one buffer: the swapchain has two buffers, and
    texture 1 is marked once, without re-arming. *)
Definition one_held_world : World :=
  run [CallSetTotalBuffers 2;
       CallMarkFrame 1%positive 1000 2000 false scenario_oracle 2500]
      {| limiter := CFPSLimiter_init 0 0; textures := ∅ |}.

(** A fresh limiter and a texture that carries a release time. *)
Definition released_once_world : World :=
  {| limiter := CFPSLimiter_init 0 0;
     textures :=
       {[ 1%positive := {| ulCPUTime := 1000000;
                           ulGPUTime := 2000000;
                           ulReleaseTime := 3000000 |} ]} |}.

(** A limiter that is armed: the scenario after [ArmNextFrame( false )]. *)
Definition armed_world : World :=
  snd (ArmNextFrame false scenario_oracle 15000000 scenario_world).

(** ** Runs that arm the timer, and the timer callback *)

(** The calls above and [ArmNextFrame]. *)
Inductive Op : Type :=
  | OpCall (c : Call)
  | OpArmNextFrame (bPreemptive : bool)
      (nextVBlankSchedule : VBlank.ScheduleTime) (ulNow : Z).

Definition step_op (op : Op) (w : World) : World :=
  match op with
  | OpCall c => step c w
  | OpArmNextFrame b o now => snd (ArmNextFrame b o now w)
  end.

Fixpoint run_ops (ops : list Op) (w : World) : World :=
  match ops with
  | [] => w
  | op :: ops' => run_ops ops' (step_op op w)
  end.

(** The timer and the cached schedule agree: no deadline was ever armed,
    the flag is down and the cache is the initial one; or the deadline is
    the wake-up point of the cache and the flag is up. *)
Definition timer_follows_schedule (l : CFPSLimiter) : Prop :=
  match timer_deadline l with
  | None => m_bArmed l = false /\ m_TimerFDSchedule l = FPSLimitScheduleTime_zero
  | Some d => d = ulScheduledWakeupPoint (m_TimerFDSchedule l) /\ m_bArmed l = true
  end.

(** How a call that takes [m_ScheduleMutex] ends: it returns, or it reaches
    the constructor of a [std::unique_lock] on [m_ScheduleMutex] while its
    thread holds that mutex ([std::mutex] is not recursive).  Both carry
    the state at that point. *)
Inductive Outcome : Type :=
  | Returns (w : World)
  | Relocks (w : World).

Definition state_of (r : Outcome) : World :=
  match r with
  | Returns w => w
  | Relocks w => w
  end.

(** [ArmNextFrame], called by a thread that holds [m_ScheduleMutex]
    ([bHoldsScheduleMutex]) or does not: its first statement locks it. *)
Definition ArmNextFrame_from (bHoldsScheduleMutex : bool) (bPreemptive : bool)
    (nextVBlankSchedule : VBlank.ScheduleTime) (ulNow : Z) (w : World) : Outcome :=
  if bHoldsScheduleMutex then Relocks w
  else Returns (snd (ArmNextFrame bPreemptive nextVBlankSchedule ulNow w)).

(** [CFPSLimiter::OnPollIn], called by the event loop, which holds no
    mutex of the limiter.  The lock of the first statement lives to the end
    of the body, so [ArmNextFrame( true )] is called with it held. *)
Definition OnPollIn (nextVBlankSchedule : VBlank.ScheduleTime) (ulNow : Z)
    (w : World) : Outcome :=
  let bWasArmed := m_bArmed (limiter w) in
  let w1 := snd (modify (set_m_bArmed false) w) in
  if negb bWasArmed then Returns w1
  else
    let w2 := snd (ReleaseOldestBuffer w1) in
    ArmNextFrame_from true true nextVBlankSchedule ulNow w2.

(** A limiter whose counter follows the queue and that holds two buffers. *)
Definition two_held_world : World :=
  run [CallSetTotalBuffers 2; CallHoldBuffer 1%positive; CallHoldBuffer 2%positive]
      scenario_world.

(** A limiter whose last release is later than its last GPU timestamp. *)
Definition late_release_world : World :=
  {| limiter := CFPSLimiter_init 3000000 5000000; textures := ∅ |}.

(** * Properties *)

(** ** Unfolding the methods *)

Ltac run_method :=
  unfold MarkFrame, SetTotalBuffers, ArmNextFrame, CalcNextWakeupTime,
    HoldBuffer, ReleaseAllBuffers, ReleaseOldestBuffer, ArmTimer,
    read_timestamp, write_timestamp, modify, this, bind, ret;
  cbn [fst snd limiter textures].

Lemma wrap64_small (z : Z) : is_uint64 z -> wrap64 z = z.
Proof. unfold is_uint64, wrap64. intros H. apply Z.mod_small. exact H. Qed.

Lemma wrap64_sub_wrap64 (a b : Z) : wrap64 (a - wrap64 b) = wrap64 (a - b).
Proof. unfold wrap64. apply Zminus_mod_idemp_r. Qed.

Lemma wrap32_sub_1 (n d : Z) : wrap32 (wrap32 (n + d) - 1) = wrap32 (n - 1 + d).
Proof.
  unfold wrap32. rewrite Zminus_mod_idemp_l. f_equal. lia.
Qed.

Lemma wrap32_add_1 (n d : Z) : wrap32 (wrap32 (n + d) + 1) = wrap32 (n + 1 + d).
Proof.
  unfold wrap32. rewrite Zplus_mod_idemp_l. f_equal. lia.
Qed.

(** [CalcNextWakeupTime] assigns no member. *)
Lemma CalcNextWakeupTime_state (b : bool) (o : VBlank.ScheduleTime) (now : Z) (w : World) :
  snd (CalcNextWakeupTime b o now w) = w.
Proof. run_method. reflexivity. Qed.

(** The schedule it returns, member by member. *)
Lemma CalcNextWakeupTime_result (b : bool) (o : VBlank.ScheduleTime) (now : Z) (w : World) :
  fst (CalcNextWakeupTime b o now w) =
  let cand :=
    wrap64 (VBlank.ulScheduledWakeupPoint o
            - wrap64 (m_ulLastGPUTimestamp (limiter w) - m_ulLastRelease (limiter w))) in
  {| ulTargetVBlank := VBlank.ulTargetVBlank o;
     ulTargetLatch := VBlank.ulScheduledWakeupPoint o;
     ulScheduledWakeupPoint := if cand >? wrap64 (now + 500000) then now else cand |}.
Proof. run_method. reflexivity. Qed.

(** Without wrap-around the wake-up point is the candidate of plain
    arithmetic, or the clock when the candidate is beyond the slop. *)
Lemma CalcNextWakeupTime_plain (b : bool) (o : VBlank.ScheduleTime) (now : Z) (w : World) :
  let latency := m_ulLastGPUTimestamp (limiter w) - m_ulLastRelease (limiter w) in
  let candidate := VBlank.ulScheduledWakeupPoint o - latency in
  is_uint64 latency -> is_uint64 candidate -> is_uint64 (now + 500000) ->
  ulScheduledWakeupPoint (fst (CalcNextWakeupTime b o now w)) =
  if candidate >? now + 500000 then now else candidate.
Proof.
  intros latency candidate Hl Hc Hn.
  rewrite CalcNextWakeupTime_result. cbn [ulScheduledWakeupPoint].
  fold latency. rewrite (wrap64_small latency Hl).
  fold candidate. rewrite (wrap64_small candidate Hc).
  rewrite (wrap64_small _ Hn). reflexivity.
Qed.

(** ** Wake-up time computation *)

(** C1 (as the code has it): in every state and for every answer of the
    vblank timer, the scheduled wake-up point that [CalcNextWakeupTime]
    returns is the candidate, target latch - (last GPU timestamp - last
    release) taken in 64-bit unsigned arithmetic, when the candidate is at
    most now + 500,000, that sum taken in 64-bit unsigned arithmetic too,
    and is now when the candidate is beyond it; when nothing wraps, the
    candidate and the sum are those of plain arithmetic.  With target latch
    16,666,666, last GPU timestamp 5,000,000 and last release 3,000,000 the
    candidate is 14,666,666: it is returned for every now with
    14,166,666 <= now < 2^64 - 500,000 (so for now = 15,000,000), and now
    is returned for every other clock reading: for every now below
    14,166,666, and for every now from 2^64 - 500,000 on, where
    now + 500,000 wraps. *)
Theorem CalcNextWakeupTime_wakeup_point :
  forall (bPreemptive : bool) (o : VBlank.ScheduleTime) (ulNow : Z) (w : World),
    let r := fst (CalcNextWakeupTime bPreemptive o ulNow w) in
    let latency := m_ulLastGPUTimestamp (limiter w) - m_ulLastRelease (limiter w) in
    let candidate := ulTargetLatch r - latency in
    ulScheduledWakeupPoint r =
      (if wrap64 candidate >? wrap64 (ulNow + 500000) then ulNow else wrap64 candidate)
    /\ (is_uint64 latency -> is_uint64 candidate -> is_uint64 (ulNow + 500000) ->
        (candidate <= ulNow + 500000 -> ulScheduledWakeupPoint r = candidate)
        /\ (candidate > ulNow + 500000 -> ulScheduledWakeupPoint r = ulNow))
    /\ (ulTargetLatch r = 16666666 ->
        m_ulLastGPUTimestamp (limiter w) = 5000000 ->
        m_ulLastRelease (limiter w) = 3000000 ->
        (14166666 <= ulNow < 2 ^ 64 - 500000 -> ulScheduledWakeupPoint r = 14666666)
        /\ (0 <= ulNow < 14166666 -> ulScheduledWakeupPoint r = ulNow)
        /\ (2 ^ 64 - 500000 <= ulNow < 2 ^ 64 -> ulScheduledWakeupPoint r = ulNow)).
Proof.
  intros b o now w r latency candidate.
  assert (Hlatch : ulTargetLatch r = VBlank.ulScheduledWakeupPoint o).
  { unfold r. rewrite CalcNextWakeupTime_result. reflexivity. }
  assert (Hmod : ulScheduledWakeupPoint r =
                 if wrap64 candidate >? wrap64 (now + 500000) then now
                 else wrap64 candidate).
  { unfold candidate. rewrite Hlatch. unfold r.
    rewrite CalcNextWakeupTime_result. cbn [ulScheduledWakeupPoint].
    rewrite wrap64_sub_wrap64. reflexivity. }
  assert (Hplain : is_uint64 latency -> is_uint64 candidate ->
                   is_uint64 (now + 500000) ->
                   ulScheduledWakeupPoint r =
                   if candidate >? now + 500000 then now else candidate).
  { intros Hl Hc Hn. unfold candidate. rewrite Hlatch.
    apply CalcNextWakeupTime_plain; [exact Hl | | exact Hn].
    unfold candidate in Hc. rewrite Hlatch in Hc. exact Hc. }
  split; [exact Hmod | split].
  - intros Hl Hc Hn. rewrite (Hplain Hl Hc Hn). rewrite Z.gtb_ltb.
    split; intros H; destruct (Z.ltb_spec (now + 500000) candidate); lia.
  - intros H16 Hgpu Hrel.
    assert (Hl : is_uint64 latency) by (unfold latency, is_uint64; lia).
    assert (Hc : candidate = 14666666) by (unfold candidate, latency; lia).
    assert (Hc' : is_uint64 candidate) by (unfold is_uint64; lia).
    split; [| split]; intros Hnow.
    + assert (Hn : is_uint64 (now + 500000)) by (unfold is_uint64; lia).
      rewrite (Hplain Hl Hc' Hn). rewrite Z.gtb_ltb.
      destruct (Z.ltb_spec (now + 500000) candidate); lia.
    + assert (Hn : is_uint64 (now + 500000)) by (unfold is_uint64; lia).
      rewrite (Hplain Hl Hc' Hn). rewrite Z.gtb_ltb.
      destruct (Z.ltb_spec (now + 500000) candidate); lia.
    + rewrite Hmod, (wrap64_small candidate Hc'), Hc.
      assert (Hw : wrap64 (now + 500000) = now + 500000 - 2 ^ 64).
      { unfold wrap64.
        replace (now + 500000) with (now + 500000 - 2 ^ 64 + 1 * 2 ^ 64) at 1 by lia.
        rewrite Z_mod_plus_full. apply Z.mod_small. lia. }
      rewrite Hw, Z.gtb_ltb.
      destruct (Z.ltb_spec (now + 500000 - 2 ^ 64) 14666666); [reflexivity | lia].
Qed.

(** The spec's scenario at now = 15,000,000, through the theorem: the
    candidate 14,666,666 is returned. *)
Lemma CalcNextWakeupTime_wakeup_point_witness :
  ulScheduledWakeupPoint
    (fst (CalcNextWakeupTime true scenario_oracle 15000000 scenario_world))
  = 14666666.
Proof.
  pose proof (CalcNextWakeupTime_wakeup_point true scenario_oracle 15000000
                scenario_world) as H.
  cbv zeta in H. destruct H as [_ [_ H]].
  destruct H as [H _]; [reflexivity | reflexivity | reflexivity |].
  apply H. lia.
Defined.

(** C1 (as the spec words it) fails on the code: at now = 15,000,000 the
    fallback is not taken and 14,666,666 is returned, not now; and at
    now = 14,000,000, which is below 14,666,166, the fallback is taken and
    now is returned, not 14,666,666. *)
Lemma CalcNextWakeupTime_spec_scenario_fails :
  ulTargetLatch
    (fst (CalcNextWakeupTime true scenario_oracle 15000000 scenario_world))
  = 16666666
  /\ m_ulLastGPUTimestamp (limiter scenario_world) = 5000000
  /\ m_ulLastRelease (limiter scenario_world) = 3000000
  /\ ulScheduledWakeupPoint
       (fst (CalcNextWakeupTime true scenario_oracle 15000000 scenario_world))
     = 14666666
  /\ ulScheduledWakeupPoint
       (fst (CalcNextWakeupTime true scenario_oracle 15000000 scenario_world))
     <> 15000000
  /\ 14000000 < 14666166
  /\ ulScheduledWakeupPoint
       (fst (CalcNextWakeupTime true scenario_oracle 14000000 scenario_world))
     = 14000000
  /\ ulScheduledWakeupPoint
       (fst (CalcNextWakeupTime true scenario_oracle 14000000 scenario_world))
     <> 14666666.
Proof.
  repeat split; try reflexivity; try lia; vm_compute; discriminate.
Qed.

(** C10: the target latch that [CalcNextWakeupTime] returns is the
    scheduled wake-up point of the vblank timer's answer; the answer's own
    target latch is not read (the result is the same whatever it is); and
    the candidate release time is that same scheduled wake-up point minus
    the latency window. *)
Theorem CalcNextWakeupTime_latch_is_vblank_wakeup :
  forall (bPreemptive : bool) (o : VBlank.ScheduleTime) (ulNow : Z) (w : World)
         (ulOtherLatch : Z),
    let r := fst (CalcNextWakeupTime bPreemptive o ulNow w) in
    let ulDelta :=
      wrap64 (m_ulLastGPUTimestamp (limiter w) - m_ulLastRelease (limiter w)) in
    let ulNextReleaseTime := wrap64 (VBlank.ulScheduledWakeupPoint o - ulDelta) in
    ulTargetLatch r = VBlank.ulScheduledWakeupPoint o
    /\ ulTargetVBlank r = VBlank.ulTargetVBlank o
    /\ CalcNextWakeupTime bPreemptive (VBlank.with_ulTargetLatch ulOtherLatch o) ulNow w
       = CalcNextWakeupTime bPreemptive o ulNow w
    /\ ulScheduledWakeupPoint r =
       (if ulNextReleaseTime >? wrap64 (ulNow + 500000) then ulNow
        else ulNextReleaseTime).
Proof.
  intros b o now w other r ulDelta ulNextReleaseTime.
  unfold r. rewrite CalcNextWakeupTime_result.
  repeat split.
Qed.

(** C9 (as the code has it): [CalcNextWakeupTime] changes no state, so a
    second call runs on the state of the first; with the same answer of the
    vblank timer the two schedules have the same target vblank and the same
    target latch, and with the same clock reading as well they are the same
    schedule.  The scheduled wake-up point depends on the clock. *)
Theorem CalcNextWakeupTime_twice :
  forall (b1 b2 : bool) (o : VBlank.ScheduleTime) (ulNow1 ulNow2 : Z) (w : World),
    let first := CalcNextWakeupTime b1 o ulNow1 w in
    let second := CalcNextWakeupTime b2 o ulNow2 (snd first) in
    let again := CalcNextWakeupTime b2 o ulNow1 (snd first) in
    snd first = w
    /\ snd second = w
    /\ ulTargetVBlank (fst second) = ulTargetVBlank (fst first)
    /\ ulTargetLatch (fst second) = ulTargetLatch (fst first)
    /\ again = first.
Proof.
  intros b1 b2 o now1 now2 w first second again.
  assert (H1 : snd first = w) by apply CalcNextWakeupTime_state.
  unfold second, again. rewrite H1.
  split; [exact H1 |].
  split; [apply CalcNextWakeupTime_state |].
  unfold first. rewrite !CalcNextWakeupTime_result.
  split; [reflexivity |]. split; [reflexivity |].
  run_method. reflexivity.
Qed.

(** C9 (as the spec words it) fails on the code: two peeks on one state with
    one answer of the vblank timer, the clock read at 14,000,000 and then at
    14,000,100, return the scheduled wake-up points 14,000,000 and
    14,000,100. *)
Lemma CalcNextWakeupTime_twice_differs :
  let first := CalcNextWakeupTime true scenario_oracle 14000000 scenario_world in
  let second := CalcNextWakeupTime true scenario_oracle 14000100 (snd first) in
  snd first = scenario_world
  /\ ulScheduledWakeupPoint (fst first) = 14000000
  /\ ulScheduledWakeupPoint (fst second) = 14000100
  /\ fst first <> fst second.
Proof.
  cbv zeta. repeat split; try reflexivity.
  vm_compute. discriminate.
Qed.

(** ** The queue of held buffers *)

Lemma HoldBuffer_eq (p : TexturePtr) (w : World) :
  HoldBuffer p w =
  (tt, {| limiter :=
            set_m_uAcquiredBuffers (wrap32 (m_uAcquiredBuffers (limiter w) + 1))
              (set_m_pHeldBuffers (m_pHeldBuffers (limiter w) ++ [p]) (limiter w));
          textures := textures w |}).
Proof.
  run_method. cbn.
  destruct (wrap32 (m_uAcquiredBuffers (limiter w) + 1) >? m_uTotalBuffers (limiter w));
    reflexivity.
Qed.

Lemma ReleaseAllBuffers_eq (w : World) :
  ReleaseAllBuffers w =
  (m_uAcquiredBuffers (limiter w),
   {| limiter := set_m_uAcquiredBuffers 0 (set_m_pHeldBuffers [] (limiter w));
      textures := textures w |}).
Proof. run_method. reflexivity. Qed.

Lemma ReleaseOldestBuffer_empty (w : World) :
  m_pHeldBuffers (limiter w) = [] -> ReleaseOldestBuffer w = (0, w).
Proof. intros H. run_method. rewrite H. reflexivity. Qed.

Lemma ReleaseOldestBuffer_cons (w : World) (p : TexturePtr) (rest : list TexturePtr) :
  m_pHeldBuffers (limiter w) = p :: rest ->
  ReleaseOldestBuffer w =
  (m_uAcquiredBuffers (limiter w),
   {| limiter :=
        set_m_uAcquiredBuffers (wrap32 (m_uAcquiredBuffers (limiter w) - 1))
          (set_m_pHeldBuffers rest (limiter w));
      textures := textures w |}).
Proof. intros H. run_method. rewrite H. reflexivity. Qed.

Lemma SetTotalBuffers_eq (n : Z) (w : World) :
  SetTotalBuffers n w =
  (tt, {| limiter :=
            set_m_uAcquiredBuffers 0
              (set_m_pHeldBuffers [] (set_m_uTotalBuffers n (limiter w)));
          textures := textures w |}).
Proof. run_method. reflexivity. Qed.

Lemma ArmNextFrame_forced (o : VBlank.ScheduleTime) (now : Z) (w : World) :
  ArmNextFrame false o now w =
  let w1 := {| limiter := set_m_bArmed true (limiter w); textures := textures w |} in
  let sched := fst (CalcNextWakeupTime false o now w1) in
  (tt, {| limiter :=
            set_timer_deadline (Some (ulScheduledWakeupPoint sched))
              (set_m_TimerFDSchedule sched (set_m_bArmed true (limiter w)));
          textures := textures w |}).
Proof. run_method. reflexivity. Qed.

Lemma MarkFrame_eq (p : TexturePtr) (cpu gpu : Z) (rearm : bool)
    (o : VBlank.ScheduleTime) (now : Z) (w : World) :
  MarkFrame p cpu gpu rearm o now w =
  let stamp := {| ulCPUTime := cpu; ulGPUTime := gpu;
                  ulReleaseTime := ulReleaseTime (timestamp_of (textures w) p) |} in
  let w1 := {| limiter := limiter w; textures := <[p := stamp]> (textures w) |} in
  let w2 := snd (HoldBuffer p w1) in
  if rearm then ArmNextFrame false o now w2 else (tt, w2).
Proof.
  unfold MarkFrame, read_timestamp, write_timestamp, bind, ret.
  cbn [fst snd limiter textures].
  destruct (HoldBuffer p _) as [[] w2]. destruct rearm; reflexivity.
Qed.

(** The queue and the counter after one call. *)
Lemma step_held (c : Call) (w : World) :
  m_pHeldBuffers (limiter (step c w)) =
  match c with
  | CallHoldBuffer p | CallMarkFrame p _ _ _ _ _ => m_pHeldBuffers (limiter w) ++ [p]
  | CallReleaseOldestBuffer => drop 1 (m_pHeldBuffers (limiter w))
  | CallReleaseAllBuffers | CallSetTotalBuffers _ => []
  end.
Proof.
  destruct c as [p | | | n | p cpu gpu rearm o now]; cbn [step].
  - rewrite HoldBuffer_eq. reflexivity.
  - destruct (m_pHeldBuffers (limiter w)) as [| q rest] eqn:E.
    + rewrite (ReleaseOldestBuffer_empty w E). cbn. exact E.
    + rewrite (ReleaseOldestBuffer_cons w q rest E). reflexivity.
  - rewrite ReleaseAllBuffers_eq. reflexivity.
  - rewrite SetTotalBuffers_eq. reflexivity.
  - rewrite MarkFrame_eq. cbv zeta. rewrite HoldBuffer_eq. cbn [snd].
    destruct rearm; [rewrite ArmNextFrame_forced |]; reflexivity.
Qed.

Lemma step_acquired (c : Call) (w : World) :
  m_uAcquiredBuffers (limiter (step c w)) =
  match c with
  | CallHoldBuffer _ | CallMarkFrame _ _ _ _ _ _ =>
      wrap32 (m_uAcquiredBuffers (limiter w) + 1)
  | CallReleaseOldestBuffer =>
      match m_pHeldBuffers (limiter w) with
      | [] => m_uAcquiredBuffers (limiter w)
      | _ :: _ => wrap32 (m_uAcquiredBuffers (limiter w) - 1)
      end
  | CallReleaseAllBuffers | CallSetTotalBuffers _ => 0
  end.
Proof.
  destruct c as [p | | | n | p cpu gpu rearm o now]; cbn [step].
  - rewrite HoldBuffer_eq. reflexivity.
  - destruct (m_pHeldBuffers (limiter w)) as [| q rest] eqn:E.
    + rewrite (ReleaseOldestBuffer_empty w E). reflexivity.
    + rewrite (ReleaseOldestBuffer_cons w q rest E). reflexivity.
  - rewrite ReleaseAllBuffers_eq. reflexivity.
  - rewrite SetTotalBuffers_eq. reflexivity.
  - rewrite MarkFrame_eq. cbv zeta. rewrite HoldBuffer_eq. cbn [snd].
    destruct rearm; [rewrite ArmNextFrame_forced |]; reflexivity.
Qed.

(** One call keeps the distance between the counter and the length of the
    queue, and the two calls that clear the queue bring it to 0. *)
Lemma step_acquired_offset (c : Call) (w : World) (d : Z) :
  acquired_offset d (limiter w) ->
  acquired_offset (if resets c then 0 else d) (limiter (step c w)).
Proof.
  unfold acquired_offset. intros H.
  rewrite step_held, step_acquired.
  destruct c as [p | | | n | p cpu gpu rearm o now]; cbn [resets].
  - rewrite H, wrap32_add_1, length_app. cbn [length]. f_equal. lia.
  - destruct (m_pHeldBuffers (limiter w)) as [| q rest].
    + exact H.
    + rewrite H, wrap32_sub_1. rewrite skipn_cons, drop_0. cbn [length]. f_equal. lia.
  - reflexivity.
  - reflexivity.
  - rewrite H, wrap32_add_1, length_app. cbn [length]. f_equal. lia.
Qed.

Lemma run_acquired_offset (cs : list Call) (w : World) (d : Z) :
  acquired_offset d (limiter w) ->
  acquired_offset (if existsb resets cs then 0 else d) (limiter (run cs w)).
Proof.
  revert w d. induction cs as [| c cs IH]; intros w d H; cbn [run existsb].
  - exact H.
  - apply (step_acquired_offset c) in H. apply IH in H.
    destruct (resets c); cbn [orb]; [| exact H].
    destruct (existsb resets cs); exact H.
Qed.

(** From a state in which the counter is the length of the queue, it stays
    so under every sequence of calls (in [uint32_t]). *)
Lemma run_acquired_is_length (cs : list Call) (w : World) :
  acquired_offset 0 (limiter w) -> acquired_offset 0 (limiter (run cs w)).
Proof.
  intros H. apply (run_acquired_offset cs) in H.
  destruct (existsb resets cs); exact H.
Qed.

(** C2 (what the code does): a fresh limiter has the counter at 1 and an
    empty queue, and one [HoldBuffer] later the counter is 2 and the queue
    has one buffer; after any sequence of calls from the fresh limiter the
    counter is the length of the queue plus 1 (in [uint32_t]) as long as no
    call was [ReleaseAllBuffers] or [SetTotalBuffers], and the length of
    the queue once one was. *)
Theorem acquired_count_of_fresh_limiter :
  forall (ulLastGPUTimestamp ulLastRelease : Z)
         (h : gmap positive BufferTimestamp_t) (p : TexturePtr) (cs : list Call),
    let w0 := {| limiter := CFPSLimiter_init ulLastGPUTimestamp ulLastRelease;
                 textures := h |} in
    m_uAcquiredBuffers (limiter w0) = 1
    /\ length (m_pHeldBuffers (limiter w0)) = 0%nat
    /\ m_uAcquiredBuffers (limiter (step (CallHoldBuffer p) w0)) = 2
    /\ length (m_pHeldBuffers (limiter (step (CallHoldBuffer p) w0))) = 1%nat
    /\ acquired_offset (if existsb resets cs then 0 else 1) (limiter (run cs w0)).
Proof.
  intros gpu rel h p cs w0.
  split; [reflexivity |]. split; [reflexivity |].
  split; [rewrite step_acquired; reflexivity |].
  split; [rewrite step_held; reflexivity |].
  apply run_acquired_offset. reflexivity.
Qed.

(** C3 (what the code does): [ReleaseOldestBuffer] on an empty queue
    returns 0 and changes nothing; on a queue with front [p] it returns the
    counter as it was, erases the front and decrements the counter; and in
    both cases it leaves every timestamp record as it was: the release time
    of [p] is not set.  On the limiter that holds texture 1, whose record
    has the release time 0, the call returns 1, empties the queue, and the
    release time of texture 1 is still 0. *)
Theorem ReleaseOldestBuffer_effect :
  forall w : World,
    let out := ReleaseOldestBuffer w in
    textures (snd out) = textures w
    /\ match m_pHeldBuffers (limiter w) with
       | [] => out = (0, w)
       | p :: rest =>
           fst out = m_uAcquiredBuffers (limiter w)
           /\ m_pHeldBuffers (limiter (snd out)) = rest
           /\ m_uAcquiredBuffers (limiter (snd out))
              = wrap32 (m_uAcquiredBuffers (limiter w) - 1)
           /\ ulReleaseTime (timestamp_of (textures (snd out)) p)
              = ulReleaseTime (timestamp_of (textures w) p)
       end
    /\ m_pHeldBuffers (limiter one_held_world) = [1%positive]
    /\ fst (ReleaseOldestBuffer one_held_world) = 1
    /\ m_pHeldBuffers (limiter (snd (ReleaseOldestBuffer one_held_world))) = []
    /\ ulReleaseTime
         (timestamp_of (textures (snd (ReleaseOldestBuffer one_held_world))) 1%positive)
       = 0.
Proof.
  intros w out. unfold out.
  split; [| split].
  - destruct (m_pHeldBuffers (limiter w)) as [| p rest] eqn:E.
    + rewrite (ReleaseOldestBuffer_empty w E). reflexivity.
    + rewrite (ReleaseOldestBuffer_cons w p rest E). reflexivity.
  - destruct (m_pHeldBuffers (limiter w)) as [| p rest] eqn:E.
    + apply ReleaseOldestBuffer_empty, E.
    + rewrite (ReleaseOldestBuffer_cons w p rest E). repeat split.
  - repeat split; vm_compute; reflexivity.
Qed.

(** C4: over every sequence of calls, the buffers taken out of the queue,
    in the order they were taken out, followed by the buffers still held,
    are the buffers held at the start followed by the buffers submitted, in
    the order they were submitted; and one [ReleaseOldestBuffer] erases the
    front of the queue, leaving the rest in order. *)
Theorem release_order_is_submission_order :
  forall (cs : list Call) (w : World),
    released cs w ++ m_pHeldBuffers (limiter (run cs w))
    = m_pHeldBuffers (limiter w) ++ submitted cs
    /\ released_by CallReleaseOldestBuffer w
       ++ m_pHeldBuffers (limiter (step CallReleaseOldestBuffer w))
       = m_pHeldBuffers (limiter w).
Proof.
  intros cs w. split.
  - revert w. induction cs as [| c cs IH]; intros w; cbn [released run submitted].
    + rewrite !app_nil_r. reflexivity.
    + rewrite <- app_assoc, IH, !app_assoc. f_equal.
      rewrite step_held.
      destruct c as [p | | | n | p cpu gpu rearm o now];
        cbn [released_by submitted_by]; rewrite ?app_nil_r; try reflexivity.
      apply take_drop.
  - rewrite step_held. cbn [released_by]. apply take_drop.
Qed.

(** C7: [SetTotalBuffers( n )] leaves the total at [n], the queue empty and
    the counter at 0, whatever the state before; it changes nothing else. *)
Theorem SetTotalBuffers_resets :
  forall (uTotalBuffers : Z) (w : World),
    let w' := snd (SetTotalBuffers uTotalBuffers w) in
    m_uTotalBuffers (limiter w') = uTotalBuffers
    /\ m_pHeldBuffers (limiter w') = []
    /\ m_uAcquiredBuffers (limiter w') = 0
    /\ Z.of_nat (length (m_pHeldBuffers (limiter w'))) = m_uAcquiredBuffers (limiter w')
    /\ m_bArmed (limiter w') = m_bArmed (limiter w)
    /\ m_TimerFDSchedule (limiter w') = m_TimerFDSchedule (limiter w)
    /\ timer_deadline (limiter w') = timer_deadline (limiter w)
    /\ textures w' = textures w.
Proof.
  intros n w w'. unfold w'. rewrite SetTotalBuffers_eq. repeat split.
Qed.

(** ** The armed flag *)

(** C6: when the limiter is armed, [ArmNextFrame( true )] returns at once:
    the armed flag, the cached schedule, the deadline of the timer and all
    the rest of the state are as before. *)
Theorem ArmNextFrame_preemptive_armed :
  forall (o : VBlank.ScheduleTime) (ulNow : Z) (w : World),
    m_bArmed (limiter w) = true ->
    ArmNextFrame true o ulNow w = (tt, w).
Proof.
  intros o now w H. run_method. rewrite H. reflexivity.
Qed.

Lemma ArmNextFrame_preemptive_armed_witness :
  m_bArmed (limiter armed_world) = true
  /\ timer_deadline (limiter armed_world) = Some 14666666
  /\ ArmNextFrame true scenario_oracle 16000000 armed_world = (tt, armed_world).
Proof.
  split; [reflexivity |]. split; [reflexivity |].
  apply (ArmNextFrame_preemptive_armed scenario_oracle 16000000 armed_world).
  reflexivity.
Defined.

(** ** Frame submission *)

Lemma MarkFrame_ulDelta_nonzero (ulReleaseTime ulGPUTimestampNanos : Z) :
  ulReleaseTime <> 0 -> is_uint64 ulGPUTimestampNanos ->
  MarkFrame_ulDelta ulReleaseTime ulGPUTimestampNanos = ulGPUTimestampNanos.
Proof.
  intros Hr Hg. unfold MarkFrame_ulDelta.
  destruct (Z.eqb_spec ulReleaseTime 0) as [E | _]; [contradiction |].
  rewrite Z.sub_0_r. apply wrap64_small, Hg.
Qed.

(** C5 (what the code does): [MarkFrame] assigns neither
    [m_ulLastGPUTimestamp] nor [m_ulLastRelease], so the next
    [CalcNextWakeupTime] returns what it would have returned before the
    frame was marked; and the local [ulDelta] is the GPU timestamp itself.
    For a texture released at 3,000,000 and marked with the GPU timestamp
    5,000,000, [ulDelta] is 5,000,000 (not 2,000,000), and the next schedule
    is 16,666,666 - 0 (not 16,666,666 - 2,000,000). *)
Theorem MarkFrame_records_no_latency :
  forall (p : TexturePtr) (cpu gpu : Z) (rearm : bool)
         (o : VBlank.ScheduleTime) (now : Z) (w : World)
         (b : bool) (o' : VBlank.ScheduleTime) (now' : Z),
    let w' := snd (MarkFrame p cpu gpu rearm o now w) in
    m_ulLastGPUTimestamp (limiter w') = m_ulLastGPUTimestamp (limiter w)
    /\ m_ulLastRelease (limiter w') = m_ulLastRelease (limiter w)
    /\ fst (CalcNextWakeupTime b o' now' w') = fst (CalcNextWakeupTime b o' now' w)
    /\ ulReleaseTime (timestamp_of (textures released_once_world) 1%positive) = 3000000
    /\ MarkFrame_ulDelta 3000000 5000000 = 5000000
    /\ ulScheduledWakeupPoint
         (fst (CalcNextWakeupTime true scenario_oracle 16500000
                 (snd (MarkFrame 1%positive 4000000 5000000 false
                         scenario_oracle 16500000 released_once_world))))
       = 16666666.
Proof.
  intros p cpu gpu rearm o now w b o' now' w'.
  assert (Hg : m_ulLastGPUTimestamp (limiter w') = m_ulLastGPUTimestamp (limiter w)).
  { unfold w'. rewrite MarkFrame_eq. cbv zeta. rewrite HoldBuffer_eq. cbn [snd].
    destruct rearm; [rewrite ArmNextFrame_forced |]; reflexivity. }
  assert (Hr : m_ulLastRelease (limiter w') = m_ulLastRelease (limiter w)).
  { unfold w'. rewrite MarkFrame_eq. cbv zeta. rewrite HoldBuffer_eq. cbn [snd].
    destruct rearm; [rewrite ArmNextFrame_forced |]; reflexivity. }
  split; [exact Hg |]. split; [exact Hr |].
  split; [rewrite !CalcNextWakeupTime_result, Hg, Hr; reflexivity |].
  repeat split; vm_compute; reflexivity.
Qed.

(** C8: after [MarkFrame] the record of the texture holds the new CPU time,
    the new GPU time and the release time it held before; no other record
    of the heap changes; the texture is appended to the queue and the
    counter is incremented; the total, the running flag and the two last
    timestamps are as before; and the armed flag, the cached schedule and
    the deadline of the timer are as before when the timer is not re-armed,
    and are those of a forced [ArmNextFrame] when it is. *)
Theorem MarkFrame_effect :
  forall (p : TexturePtr) (cpu gpu : Z) (rearm : bool)
         (o : VBlank.ScheduleTime) (now : Z) (w : World),
    let w' := snd (MarkFrame p cpu gpu rearm o now w) in
    let sched := fst (CalcNextWakeupTime false o now w) in
    textures w' =
      <[p := {| ulCPUTime := cpu; ulGPUTime := gpu;
                ulReleaseTime := ulReleaseTime (timestamp_of (textures w) p) |}]>
        (textures w)
    /\ timestamp_of (textures w') p =
       {| ulCPUTime := cpu; ulGPUTime := gpu;
          ulReleaseTime := ulReleaseTime (timestamp_of (textures w) p) |}
    /\ m_pHeldBuffers (limiter w') = m_pHeldBuffers (limiter w) ++ [p]
    /\ m_uAcquiredBuffers (limiter w') = wrap32 (m_uAcquiredBuffers (limiter w) + 1)
    /\ m_uTotalBuffers (limiter w') = m_uTotalBuffers (limiter w)
    /\ m_bRunning (limiter w') = m_bRunning (limiter w)
    /\ m_ulLastGPUTimestamp (limiter w') = m_ulLastGPUTimestamp (limiter w)
    /\ m_ulLastRelease (limiter w') = m_ulLastRelease (limiter w)
    /\ m_bArmed (limiter w') = (if rearm then true else m_bArmed (limiter w))
    /\ m_TimerFDSchedule (limiter w')
       = (if rearm then sched else m_TimerFDSchedule (limiter w))
    /\ timer_deadline (limiter w')
       = (if rearm then Some (ulScheduledWakeupPoint sched)
          else timer_deadline (limiter w)).
Proof.
  intros p cpu gpu rearm o now w w' sched.
  unfold w', sched. rewrite MarkFrame_eq. cbv zeta. rewrite HoldBuffer_eq. cbn [snd].
  rewrite CalcNextWakeupTime_result.
  destruct rearm.
  - rewrite ArmNextFrame_forced. cbv zeta. rewrite CalcNextWakeupTime_result.
    cbn [snd limiter textures]. split; [reflexivity |].
    split; [unfold timestamp_of; rewrite lookup_insert_eq; reflexivity |].
    repeat split.
  - cbn [snd limiter textures]. split; [reflexivity |].
    split; [unfold timestamp_of; rewrite lookup_insert_eq; reflexivity |].
    repeat split.
Qed.

(** * Further properties of the methods *)

(** ** Bounds of the wake-up point *)

Lemma wrap64_bound (z : Z) : 0 <= wrap64 z < 2 ^ 64.
Proof. unfold wrap64. apply Z.mod_pos_bound. lia. Qed.

Lemma CalcNextWakeupTime_bound (b : bool) (o : VBlank.ScheduleTime) (now : Z) (w : World) :
  0 <= now -> now + 500000 < 2 ^ 64 ->
  0 <= ulScheduledWakeupPoint (fst (CalcNextWakeupTime b o now w)) <= now + 500000.
Proof.
  intros H0 H1. rewrite CalcNextWakeupTime_result. cbv zeta.
  cbn [ulScheduledWakeupPoint].
  rewrite (wrap64_small (now + 500000)) by (unfold is_uint64; lia).
  rewrite Z.gtb_ltb.
  match goal with |- context [_ <? wrap64 ?z] => pose proof (wrap64_bound z) as Hc end.
  destruct (Z.ltb_spec (now + 500000)
              (wrap64 (VBlank.ulScheduledWakeupPoint o
                       - wrap64 (m_ulLastGPUTimestamp (limiter w)
                                 - m_ulLastRelease (limiter w))))); lia.
Qed.

(** X1: whatever the vblank timer answers and whatever the last
    timestamps are, the wake-up point that [CalcNextWakeupTime] returns is
    never later than 500,000 ns after the clock reading (and is a
    [uint64_t]), as long as now + 500,000 does not wrap. *)
Theorem CalcNextWakeupTime_at_most_slop_ahead :
  forall (bPreemptive : bool) (o : VBlank.ScheduleTime) (ulNow : Z) (w : World),
    0 <= ulNow -> ulNow + 500000 < 2 ^ 64 ->
    0 <= ulScheduledWakeupPoint (fst (CalcNextWakeupTime bPreemptive o ulNow w))
      <= ulNow + 500000.
Proof. intros b o now w. apply CalcNextWakeupTime_bound. Qed.

Lemma CalcNextWakeupTime_at_most_slop_ahead_witness :
  0 <= ulScheduledWakeupPoint
         (fst (CalcNextWakeupTime true scenario_oracle 14000000 scenario_world))
    <= 14000000 + 500000.
Proof.
  apply (CalcNextWakeupTime_at_most_slop_ahead true scenario_oracle 14000000
           scenario_world); lia.
Defined.

(** X2: when the last release is later than the last GPU timestamp (two
    [uint64_t] values), the unsigned difference of line 80 wraps to
    2^64 - (last release - last GPU timestamp), and the candidate is the
    vblank timer's wake-up point plus (last release - last GPU timestamp),
    taken in 64-bit unsigned arithmetic; the wake-up point returned is that
    candidate, or now when the candidate is beyond now + 500,000, that sum
    taken in 64-bit unsigned arithmetic too.  When the wake-up point of the
    vblank timer is a [uint64_t] and the sum for the candidate stays below
    2^64, the candidate is that sum itself: later than the wake-up point of
    the vblank timer, not earlier. *)
Theorem CalcNextWakeupTime_release_after_gpu :
  forall (bPreemptive : bool) (o : VBlank.ScheduleTime) (ulNow : Z) (w : World),
    let gpu := m_ulLastGPUTimestamp (limiter w) in
    let rel := m_ulLastRelease (limiter w) in
    let wakeup := VBlank.ulScheduledWakeupPoint o in
    let candidate := wrap64 (wakeup + (rel - gpu)) in
    is_uint64 gpu -> is_uint64 rel -> gpu < rel ->
    wrap64 (gpu - rel) = 2 ^ 64 - (rel - gpu)
    /\ ulScheduledWakeupPoint (fst (CalcNextWakeupTime bPreemptive o ulNow w))
       = (if candidate >? wrap64 (ulNow + 500000) then ulNow else candidate)
    /\ (is_uint64 wakeup -> wakeup + (rel - gpu) < 2 ^ 64 ->
        candidate = wakeup + (rel - gpu) /\ wakeup < candidate).
Proof.
  intros b o now w gpu rel wakeup candidate Hg Hr Hlt.
  unfold is_uint64 in Hg, Hr.
  split; [| split].
  - unfold wrap64.
    replace (gpu - rel) with (2 ^ 64 - (rel - gpu) + (-1) * 2 ^ 64) by lia.
    rewrite Z_mod_plus_full. apply Z.mod_small. lia.
  - rewrite CalcNextWakeupTime_result. cbv zeta. cbn [ulScheduledWakeupPoint].
    rewrite wrap64_sub_wrap64. fold gpu rel wakeup.
    replace (wakeup - (gpu - rel)) with (wakeup + (rel - gpu)) by lia.
    reflexivity.
  - intros Hw Hsum. unfold is_uint64 in Hw.
    assert (Hc : candidate = wakeup + (rel - gpu)).
    { unfold candidate. apply wrap64_small. unfold is_uint64. lia. }
    split; [exact Hc | lia].
Qed.

Lemma CalcNextWakeupTime_release_after_gpu_witness :
  ulScheduledWakeupPoint
    (fst (CalcNextWakeupTime true scenario_oracle 18500000 late_release_world))
  = 18666666
  /\ wrap64 (3000000 - 5000000) = 2 ^ 64 - 2000000
  /\ 16666666 < wrap64 (16666666 + (5000000 - 3000000)).
Proof.
  pose proof (CalcNextWakeupTime_release_after_gpu true scenario_oracle 18500000
                late_release_world) as H.
  cbv zeta in H.
  destruct H as (Hd & Hr & Hc); [split; cbn; lia .. |].
  destruct Hc as [_ Hc]; [split; cbn; lia | cbn; lia |].
  split; [exact Hr |]. split; [exact Hd | exact Hc].
Defined.

(** ** Arming *)

Lemma ArmNextFrame_eq (b : bool) (o : VBlank.ScheduleTime) (now : Z) (w : World) :
  ArmNextFrame b o now w =
  if b && m_bArmed (limiter w) then (tt, w) else ArmNextFrame false o now w.
Proof.
  run_method. destruct b, (m_bArmed (limiter w)); reflexivity.
Qed.

(** The state after each call, case by case. *)
Ltac step_cases c w :=
  let E := fresh "E" in
  destruct c as [? | | | ? | ? ? ? [|] ? ?]; cbn [step];
  [ rewrite HoldBuffer_eq
  | destruct (m_pHeldBuffers (limiter w)) as [| ? ?] eqn:E;
    [ rewrite (ReleaseOldestBuffer_empty w E)
    | rewrite (ReleaseOldestBuffer_cons w _ _ E) ]
  | rewrite ReleaseAllBuffers_eq
  | rewrite SetTotalBuffers_eq
  | rewrite MarkFrame_eq; cbv zeta; rewrite HoldBuffer_eq; cbn [snd];
    rewrite ArmNextFrame_forced
  | rewrite MarkFrame_eq; cbv zeta; rewrite HoldBuffer_eq; cbn [snd] ].

Lemma step_last_timestamps (c : Call) (w : World) :
  m_ulLastGPUTimestamp (limiter (step c w)) = m_ulLastGPUTimestamp (limiter w)
  /\ m_ulLastRelease (limiter (step c w)) = m_ulLastRelease (limiter w)
  /\ m_bRunning (limiter (step c w)) = m_bRunning (limiter w).
Proof. step_cases c w; repeat split. Qed.

Lemma step_op_last_timestamps (op : Op) (w : World) :
  m_ulLastGPUTimestamp (limiter (step_op op w)) = m_ulLastGPUTimestamp (limiter w)
  /\ m_ulLastRelease (limiter (step_op op w)) = m_ulLastRelease (limiter w)
  /\ m_bRunning (limiter (step_op op w)) = m_bRunning (limiter w).
Proof.
  destruct op as [c | b o now]; cbn [step_op].
  - apply step_last_timestamps.
  - rewrite ArmNextFrame_eq.
    destruct (b && m_bArmed (limiter w)); [repeat split |].
    rewrite ArmNextFrame_forced. repeat split.
Qed.

Lemma run_ops_last_timestamps (ops : list Op) (w : World) :
  m_ulLastGPUTimestamp (limiter (run_ops ops w)) = m_ulLastGPUTimestamp (limiter w)
  /\ m_ulLastRelease (limiter (run_ops ops w)) = m_ulLastRelease (limiter w)
  /\ m_bRunning (limiter (run_ops ops w)) = m_bRunning (limiter w).
Proof.
  revert w. induction ops as [| op ops IH]; intros w; cbn [run_ops].
  - repeat split.
  - destruct (IH (step_op op w)) as (Hg & Hr & Hb).
    destruct (step_op_last_timestamps op w) as (Hg' & Hr' & Hb').
    rewrite Hg, Hr, Hb. auto.
Qed.

(** The armed flag, the cached schedule and the timer after one call: only
    a [MarkFrame] that re-arms touches them. *)
Lemma step_schedule_members (c : Call) (w : World) :
  let l' := limiter (step c w) in
  match c with
  | CallMarkFrame _ _ _ true o now =>
      let sched := fst (CalcNextWakeupTime false o now w) in
      m_bArmed l' = true
      /\ m_TimerFDSchedule l' = sched
      /\ timer_deadline l' = Some (ulScheduledWakeupPoint sched)
  | _ =>
      m_bArmed l' = m_bArmed (limiter w)
      /\ m_TimerFDSchedule l' = m_TimerFDSchedule (limiter w)
      /\ timer_deadline l' = timer_deadline (limiter w)
  end.
Proof.
  cbv zeta. step_cases c w; repeat split.
Qed.

Lemma ArmNextFrame_arms (b : bool) (o : VBlank.ScheduleTime) (now : Z) (w : World) :
  b && m_bArmed (limiter w) = false ->
  let l' := limiter (snd (ArmNextFrame b o now w)) in
  let sched := fst (CalcNextWakeupTime b o now w) in
  m_bArmed l' = true
  /\ m_TimerFDSchedule l' = sched
  /\ timer_deadline l' = Some (ulScheduledWakeupPoint sched).
Proof.
  intros H. rewrite ArmNextFrame_eq, H, ArmNextFrame_forced. cbv zeta.
  rewrite !CalcNextWakeupTime_result. repeat split.
Qed.

Lemma step_op_timer_follows_schedule (op : Op) (w : World) :
  timer_follows_schedule (limiter w) ->
  timer_follows_schedule (limiter (step_op op w)).
Proof.
  intros H. destruct op as [c | b o now]; cbn [step_op].
  - pose proof (step_schedule_members c w) as Hs. cbv zeta in Hs.
    unfold timer_follows_schedule in *.
    destruct c as [? | | | ? | ? ? ? [|] ? ?];
      destruct Hs as (Ha & Hc & Ht); rewrite Ha, Hc, Ht; try exact H.
    split; reflexivity.
  - destruct (b && m_bArmed (limiter w)) eqn:E.
    + rewrite ArmNextFrame_eq, E. exact H.
    + destruct (ArmNextFrame_arms b o now w E) as (Ha & Hc & Ht).
      unfold timer_follows_schedule. rewrite Ha, Hc, Ht. split; reflexivity.
Qed.

(** X3: a call of [ArmNextFrame] that does not return at its guard (it is
    not pre-emptive, or the limiter is not armed) leaves the limiter armed,
    caches the schedule of [CalcNextWakeupTime] and arms the timer at the
    wake-up point of that schedule, which is at most 500,000 ns after the
    clock reading. *)
Theorem ArmNextFrame_deadline_at_most_slop_ahead :
  forall (bPreemptive : bool) (o : VBlank.ScheduleTime) (ulNow : Z) (w : World),
    bPreemptive && m_bArmed (limiter w) = false ->
    0 <= ulNow -> ulNow + 500000 < 2 ^ 64 ->
    let l' := limiter (snd (ArmNextFrame bPreemptive o ulNow w)) in
    m_bArmed l' = true
    /\ m_TimerFDSchedule l' = fst (CalcNextWakeupTime bPreemptive o ulNow w)
    /\ timer_deadline l' = Some (ulScheduledWakeupPoint (m_TimerFDSchedule l'))
    /\ 0 <= ulScheduledWakeupPoint (m_TimerFDSchedule l') <= ulNow + 500000.
Proof.
  intros b o now w Hguard H0 H1 l'.
  destruct (ArmNextFrame_arms b o now w Hguard) as (Ha & Hc & Ht).
  fold l' in Ha, Hc, Ht. rewrite Hc.
  repeat split; try assumption; apply CalcNextWakeupTime_bound; assumption.
Qed.

Lemma ArmNextFrame_deadline_at_most_slop_ahead_witness :
  timer_deadline
    (limiter (snd (ArmNextFrame true scenario_oracle 14000000 scenario_world)))
  = Some 14000000.
Proof.
  destruct (ArmNextFrame_deadline_at_most_slop_ahead true scenario_oracle
              14000000 scenario_world) as (_ & _ & Ht & _);
    [reflexivity | lia | lia |].
  exact Ht.
Defined.

(** X4: after any [ArmNextFrame] the limiter is armed, so a pre-emptive
    [ArmNextFrame] that follows it, whatever the vblank timer and the clock
    say by then, returns at its guard and changes nothing. *)
Theorem ArmNextFrame_then_preemptive :
  forall (b : bool) (o o' : VBlank.ScheduleTime) (ulNow ulNow' : Z) (w : World),
    let w1 := snd (ArmNextFrame b o ulNow w) in
    m_bArmed (limiter w1) = true
    /\ ArmNextFrame true o' ulNow' w1 = (tt, w1).
Proof.
  intros b o o' now now' w w1.
  assert (Ha : m_bArmed (limiter w1) = true).
  { unfold w1. destruct (b && m_bArmed (limiter w)) eqn:E.
    - rewrite ArmNextFrame_eq, E. cbn [snd].
      destruct b; [exact E | discriminate E].
    - apply (ArmNextFrame_arms b o now w E). }
  split; [exact Ha |].
  rewrite ArmNextFrame_eq, Ha. reflexivity.
Qed.

(** X5: from a fresh limiter, after any sequence of [HoldBuffer],
    [ReleaseOldestBuffer], [ReleaseAllBuffers], [SetTotalBuffers],
    [MarkFrame] and [ArmNextFrame] calls, the timer and the cached schedule
    agree: either no deadline was armed, the flag is down and the cache is
    zero, or the armed deadline is the cached wake-up point and the flag is
    up. *)
Theorem timer_deadline_is_cached_wakeup :
  forall (ulLastGPUTimestamp ulLastRelease : Z)
         (h : gmap positive BufferTimestamp_t) (ops : list Op),
    timer_follows_schedule
      (limiter (run_ops ops
                  {| limiter := CFPSLimiter_init ulLastGPUTimestamp ulLastRelease;
                     textures := h |})).
Proof.
  intros gpu rel h ops.
  assert (H : forall w, timer_follows_schedule (limiter w) ->
                        timer_follows_schedule (limiter (run_ops ops w))).
  { induction ops as [| op ops IH]; intros w Hw; cbn [run_ops].
    - exact Hw.
    - apply IH, step_op_timer_follows_schedule, Hw. }
  apply H. split; reflexivity.
Qed.

(** X6: no sequence of calls assigns [m_ulLastGPUTimestamp],
    [m_ulLastRelease] or [m_bRunning]; so after any sequence of calls
    [CalcNextWakeupTime] returns, for one answer of the vblank timer and
    one clock reading, the schedule it returned before them: the latency
    window never follows the frames. *)
Theorem latency_window_is_constant :
  forall (ops : list Op) (w : World) (b : bool) (o : VBlank.ScheduleTime) (ulNow : Z),
    let w' := run_ops ops w in
    m_ulLastGPUTimestamp (limiter w') = m_ulLastGPUTimestamp (limiter w)
    /\ m_ulLastRelease (limiter w') = m_ulLastRelease (limiter w)
    /\ m_bRunning (limiter w') = m_bRunning (limiter w)
    /\ fst (CalcNextWakeupTime b o ulNow w') = fst (CalcNextWakeupTime b o ulNow w).
Proof.
  intros ops w b o now w'.
  destruct (run_ops_last_timestamps ops w) as (Hg & Hr & Hb). fold w' in Hg, Hr, Hb.
  repeat split; try assumption.
  rewrite !CalcNextWakeupTime_result, Hg, Hr. reflexivity.
Qed.

(** ** The texture heap *)

Lemma step_textures (c : Call) (w : World) :
  textures (step c w) =
  match c with
  | CallMarkFrame p cpu gpu _ _ _ =>
      <[p := {| ulCPUTime := cpu; ulGPUTime := gpu;
                ulReleaseTime := ulReleaseTime (timestamp_of (textures w) p) |}]>
        (textures w)
  | _ => textures w
  end.
Proof. step_cases c w; reflexivity. Qed.

Lemma step_op_textures (op : Op) (w : World) :
  textures (step_op op w) =
  match op with
  | OpCall c => textures (step c w)
  | OpArmNextFrame _ _ _ => textures w
  end.
Proof.
  destruct op as [c | b o now]; cbn [step_op]; [reflexivity |].
  rewrite ArmNextFrame_eq. destruct (b && m_bArmed (limiter w)); [reflexivity |].
  rewrite ArmNextFrame_forced. reflexivity.
Qed.

Lemma step_op_release_time (op : Op) (w : World) (q : TexturePtr) :
  ulReleaseTime (timestamp_of (textures (step_op op w)) q)
  = ulReleaseTime (timestamp_of (textures w) q).
Proof.
  rewrite step_op_textures. destruct op as [c | b o now]; [| reflexivity].
  rewrite step_textures.
  destruct c as [? | | | ? | p cpu gpu rearm o now]; try reflexivity.
  unfold timestamp_of at 1.
  destruct (decide (p = q)) as [-> | Hne].
  - rewrite lookup_insert_eq. reflexivity.
  - rewrite lookup_insert_ne by exact Hne. reflexivity.
Qed.

(** X7: no sequence of calls changes the release time of any texture:
    [MarkFrame] carries it forward, and nothing else writes a timestamp
    record. *)
Theorem release_time_never_changes :
  forall (ops : list Op) (w : World) (q : TexturePtr),
    ulReleaseTime (timestamp_of (textures (run_ops ops w)) q)
    = ulReleaseTime (timestamp_of (textures w) q).
Proof.
  intros ops. induction ops as [| op ops IH]; intros w q; cbn [run_ops].
  - reflexivity.
  - rewrite IH. apply step_op_release_time.
Qed.

(** ** More on the queue *)

Lemma run_holds (ps : list TexturePtr) (w : World) :
  m_pHeldBuffers (limiter (run (map CallHoldBuffer ps) w))
  = m_pHeldBuffers (limiter w) ++ ps
  /\ m_uTotalBuffers (limiter (run (map CallHoldBuffer ps) w))
     = m_uTotalBuffers (limiter w).
Proof.
  revert w. induction ps as [| p ps IH]; intros w; cbn [map run].
  - rewrite app_nil_r. split; reflexivity.
  - destruct (IH (step (CallHoldBuffer p) w)) as [Hq Ht].
    rewrite Hq, Ht, step_held, <- app_assoc. cbn [step].
    rewrite HoldBuffer_eq. split; reflexivity.
Qed.

(** X8: [HoldBuffer] never refuses a buffer.  After [SetTotalBuffers( n )],
    holding the buffers [ps] leaves exactly [ps] in the queue, in order, and
    the counter at their number, also when there are more of them than
    [n]; the total stays [n]. *)
Theorem HoldBuffer_beyond_total :
  forall (uTotalBuffers : Z) (ps : list TexturePtr) (w : World),
    Z.of_nat (length ps) < 2 ^ 32 ->
    let w' := run (CallSetTotalBuffers uTotalBuffers :: map CallHoldBuffer ps) w in
    m_pHeldBuffers (limiter w') = ps
    /\ m_uAcquiredBuffers (limiter w') = Z.of_nat (length ps)
    /\ m_uTotalBuffers (limiter w') = uTotalBuffers.
Proof.
  intros n ps w Hlen w'. unfold w'. cbn [run].
  destruct (run_holds ps (step (CallSetTotalBuffers n) w)) as [Hq Ht].
  assert (H0 : acquired_offset 0 (limiter (step (CallSetTotalBuffers n) w))).
  { cbn [step]. rewrite SetTotalBuffers_eq. reflexivity. }
  apply (run_acquired_is_length (map CallHoldBuffer ps)) in H0.
  unfold acquired_offset in H0. rewrite H0, Hq, Ht.
  cbn [step]. rewrite SetTotalBuffers_eq. cbn.
  repeat split. rewrite Z.add_0_r. unfold wrap32. apply Z.mod_small. lia.
Qed.

Lemma HoldBuffer_beyond_total_witness :
  let w' := run (CallSetTotalBuffers 2
                 :: map CallHoldBuffer [1%positive; 2%positive; 3%positive])
                scenario_world in
  m_uAcquiredBuffers (limiter w') = 3 /\ m_uTotalBuffers (limiter w') = 2.
Proof.
  destruct (HoldBuffer_beyond_total 2 [1%positive; 2%positive; 3%positive]
              scenario_world) as (_ & Ha & Ht); [cbn; lia |].
  split; [exact Ha | exact Ht].
Defined.

(** X9: a texture that is marked twice is held twice: the queue gets two
    entries for it and the counter goes up by two, and the one record of
    the texture holds the times of the second call and the release time it
    had before the first. *)
Theorem MarkFrame_twice_same_texture :
  forall (p : TexturePtr) (cpu1 gpu1 cpu2 gpu2 : Z) (rearm1 rearm2 : bool)
         (o1 o2 : VBlank.ScheduleTime) (now1 now2 : Z) (w : World),
    let w' := run [CallMarkFrame p cpu1 gpu1 rearm1 o1 now1;
                   CallMarkFrame p cpu2 gpu2 rearm2 o2 now2] w in
    m_pHeldBuffers (limiter w') = m_pHeldBuffers (limiter w) ++ [p; p]
    /\ m_uAcquiredBuffers (limiter w') = wrap32 (m_uAcquiredBuffers (limiter w) + 2)
    /\ timestamp_of (textures w') p =
       {| ulCPUTime := cpu2; ulGPUTime := gpu2;
          ulReleaseTime := ulReleaseTime (timestamp_of (textures w) p) |}.
Proof.
  intros p cpu1 gpu1 cpu2 gpu2 rearm1 rearm2 o1 o2 now1 now2 w w'.
  unfold w'. cbn [run].
  split; [| split].
  - rewrite !step_held, <- app_assoc. reflexivity.
  - rewrite !step_acquired. unfold wrap32.
    rewrite Zplus_mod_idemp_l. f_equal. lia.
  - rewrite !step_textures. unfold timestamp_of.
    rewrite !lookup_insert_eq. reflexivity.
Qed.

(** X10: on an empty queue, [HoldBuffer] followed by [ReleaseOldestBuffer]
    gives back the state before the two calls, and the release returns the
    counter as the hold left it. *)
Theorem HoldBuffer_then_ReleaseOldestBuffer :
  forall (p : TexturePtr) (w : World),
    m_pHeldBuffers (limiter w) = [] ->
    0 <= m_uAcquiredBuffers (limiter w) < 2 ^ 32 ->
    ReleaseOldestBuffer (snd (HoldBuffer p w))
    = (wrap32 (m_uAcquiredBuffers (limiter w) + 1), w).
Proof.
  intros p w Hq Ha. rewrite HoldBuffer_eq. cbn [snd].
  rewrite (ReleaseOldestBuffer_cons _ p []) by (cbn; rewrite Hq; reflexivity).
  cbn [limiter textures m_uAcquiredBuffers set_m_uAcquiredBuffers].
  f_equal. destruct w as [l h]. cbn [limiter textures] in *. f_equal.
  destruct l as [a r t c q s g rl d]. cbn in Hq, Ha. subst q.
  unfold set_m_uAcquiredBuffers, set_m_pHeldBuffers. cbn. f_equal.
  unfold wrap32. rewrite Zminus_mod_idemp_l.
  replace (c + 1 - 1) with c by lia.
  apply Z.mod_small. lia.
Qed.

Lemma HoldBuffer_then_ReleaseOldestBuffer_witness :
  ReleaseOldestBuffer (snd (HoldBuffer 7%positive scenario_world))
  = (2, scenario_world).
Proof.
  apply (HoldBuffer_then_ReleaseOldestBuffer 7%positive scenario_world);
    [reflexivity | cbn; lia].
Defined.

(** X11: when the counter is the length of the queue, [ReleaseOldestBuffer]
    returns the number of buffers held before the call (0 when there is
    none), and the counter is the length of the queue afterwards. *)
Theorem ReleaseOldestBuffer_returns_held_count :
  forall w : World,
    acquired_offset 0 (limiter w) ->
    Z.of_nat (length (m_pHeldBuffers (limiter w))) < 2 ^ 32 ->
    let out := ReleaseOldestBuffer w in
    fst out = Z.of_nat (length (m_pHeldBuffers (limiter w)))
    /\ m_uAcquiredBuffers (limiter (snd out))
       = Z.of_nat (length (m_pHeldBuffers (limiter (snd out))))
    /\ length (m_pHeldBuffers (limiter (snd out)))
       = Nat.pred (length (m_pHeldBuffers (limiter w))).
Proof.
  intros w H Hlen out. unfold out. unfold acquired_offset in H.
  assert (Ha : m_uAcquiredBuffers (limiter w)
               = Z.of_nat (length (m_pHeldBuffers (limiter w)))).
  { rewrite H, Z.add_0_r. unfold wrap32. apply Z.mod_small. lia. }
  destruct (m_pHeldBuffers (limiter w)) as [| q rest] eqn:E.
  - rewrite (ReleaseOldestBuffer_empty w E). cbn [fst snd].
    rewrite E. cbn [length Nat.pred]. rewrite Ha. repeat split.
  - rewrite (ReleaseOldestBuffer_cons w q rest E).
    cbn [fst snd limiter m_uAcquiredBuffers m_pHeldBuffers
         set_m_uAcquiredBuffers set_m_pHeldBuffers length Nat.pred].
    rewrite Ha. repeat split.
    unfold wrap32. cbn [length] in Hlen |- *.
    rewrite Z.mod_small by lia. lia.
Qed.

Lemma ReleaseOldestBuffer_returns_held_count_witness :
  fst (ReleaseOldestBuffer two_held_world) = 2.
Proof.
  destruct (ReleaseOldestBuffer_returns_held_count two_held_world) as (H & _);
    [reflexivity | vm_compute; reflexivity |].
  exact H.
Defined.

(** X12: after [ReleaseAllBuffers] there is nothing left to release: a
    second [ReleaseAllBuffers] and a [ReleaseOldestBuffer] both return 0
    and change nothing. *)
Theorem ReleaseAllBuffers_then_release :
  forall w : World,
    let w1 := snd (ReleaseAllBuffers w) in
    ReleaseAllBuffers w1 = (0, w1) /\ ReleaseOldestBuffer w1 = (0, w1).
Proof.
  intros w w1. unfold w1. rewrite ReleaseAllBuffers_eq. cbn [snd]. split.
  - rewrite ReleaseAllBuffers_eq. reflexivity.
  - apply ReleaseOldestBuffer_empty. reflexivity.
Qed.

(** X13: [k] calls of [ReleaseOldestBuffer] take the first [k] buffers of
    the queue, in order, and leave the rest; past the end of the queue they
    take nothing. *)
Theorem ReleaseOldestBuffer_drains_in_order :
  forall (k : nat) (w : World),
    released (replicate k CallReleaseOldestBuffer) w
    = take k (m_pHeldBuffers (limiter w))
    /\ m_pHeldBuffers (limiter (run (replicate k CallReleaseOldestBuffer) w))
       = drop k (m_pHeldBuffers (limiter w)).
Proof.
  intros k. induction k as [| k IH]; intros w.
  - cbn. rewrite drop_0. split; reflexivity.
  - cbn [replicate released run released_by].
    destruct (IH (step CallReleaseOldestBuffer w)) as [Hr Hq].
    rewrite Hr, Hq, step_held. split.
    + apply (take_take_drop (m_pHeldBuffers (limiter w)) 1 k).
    + rewrite drop_drop. reflexivity.
Qed.

(** ** The timer callback *)

Lemma set_m_bArmed_same (l : CFPSLimiter) :
  set_m_bArmed (m_bArmed l) l = l.
Proof. destruct l. reflexivity. Qed.

(** X14: a timer callback on a limiter that is not armed (a stale or
    repeated wake-up) returns and changes nothing: no buffer is released
    and no timer is armed. *)
Theorem OnPollIn_disarmed :
  forall (o : VBlank.ScheduleTime) (ulNow : Z) (w : World),
    m_bArmed (limiter w) = false ->
    OnPollIn o ulNow w = Returns w.
Proof.
  intros o now w H. unfold OnPollIn, modify. cbn [snd limiter textures].
  rewrite H. cbn [negb]. f_equal.
  rewrite <- H at 1. rewrite set_m_bArmed_same. destruct w. reflexivity.
Qed.

Lemma OnPollIn_disarmed_witness :
  OnPollIn scenario_oracle 15000000 scenario_world = Returns scenario_world.
Proof.
  apply (OnPollIn_disarmed scenario_oracle 15000000 scenario_world).
  reflexivity.
Defined.

(** X15: a timer callback on an armed limiter clears the armed flag,
    erases the front of the queue, and then calls [ArmNextFrame], whose
    first statement locks [m_ScheduleMutex] while the callback still holds
    it: the callback does not get to arm the next frame.  At that point the
    flag is down, and the cached schedule, the deadline of the timer and
    the timestamp records are those from before the callback. *)
Theorem OnPollIn_armed :
  forall (o : VBlank.ScheduleTime) (ulNow : Z) (w : World),
    m_bArmed (limiter w) = true ->
    let out := OnPollIn o ulNow w in
    out = Relocks (state_of out)
    /\ m_bArmed (limiter (state_of out)) = false
    /\ m_pHeldBuffers (limiter (state_of out)) = drop 1 (m_pHeldBuffers (limiter w))
    /\ m_TimerFDSchedule (limiter (state_of out)) = m_TimerFDSchedule (limiter w)
    /\ timer_deadline (limiter (state_of out)) = timer_deadline (limiter w)
    /\ textures (state_of out) = textures w.
Proof.
  intros o now w H out. unfold out, OnPollIn, ArmNextFrame_from, modify.
  cbn [snd limiter textures]. rewrite H. cbn [negb state_of].
  set (w1 := {| limiter := set_m_bArmed false (limiter w); textures := textures w |}).
  destruct (m_pHeldBuffers (limiter w)) as [| q rest] eqn:E.
  - rewrite (ReleaseOldestBuffer_empty w1) by exact E.
    cbn [snd]. unfold w1. cbn. rewrite E. repeat split.
  - rewrite (ReleaseOldestBuffer_cons w1 q rest) by exact E.
    cbn [snd]. unfold w1. cbn. rewrite drop_0. repeat split.
Qed.

Lemma OnPollIn_armed_witness :
  let out := OnPollIn scenario_oracle 16000000 armed_world in
  out = Relocks (state_of out)
  /\ m_bArmed (limiter (state_of out)) = false
  /\ timer_deadline (limiter (state_of out)) = Some 14666666.
Proof.
  destruct (OnPollIn_armed scenario_oracle 16000000 armed_world)
    as (Ho & Ha & _ & _ & Ht & _); [reflexivity |].
  split; [exact Ho |]. split; [exact Ha | exact Ht].
Defined.

(** ** The counter after the queue was cleared *)

Lemma step_op_acquired_is_length (op : Op) (w : World) :
  acquired_offset 0 (limiter w) -> acquired_offset 0 (limiter (step_op op w)).
Proof.
  intros H. destruct op as [c | b o now]; cbn [step_op].
  - apply (step_acquired_offset c) in H. destruct (resets c); exact H.
  - rewrite ArmNextFrame_eq. destruct (b && m_bArmed (limiter w)); [exact H |].
    rewrite ArmNextFrame_forced. exact H.
Qed.

Lemma run_ops_acquired_is_length (ops : list Op) (w : World) :
  acquired_offset 0 (limiter w) -> acquired_offset 0 (limiter (run_ops ops w)).
Proof.
  revert w. induction ops as [| op ops IH]; intros w H; cbn [run_ops].
  - exact H.
  - apply IH, step_op_acquired_is_length, H.
Qed.

Lemma run_ops_app (ops1 ops2 : list Op) (w : World) :
  run_ops (ops1 ++ ops2) w = run_ops ops2 (run_ops ops1 w).
Proof.
  revert w. induction ops1 as [| op ops1 IH]; intros w; cbn [app run_ops].
  - reflexivity.
  - apply IH.
Qed.

(** X16: once [SetTotalBuffers] or [ReleaseAllBuffers] was called, the
    counter is the length of the queue (in [uint32_t]) after every further
    sequence of calls, whatever the state before the clearing call was. *)
Theorem counter_is_queue_length_after_clear :
  forall (before after : list Op) (c : Call) (w : World),
    resets c = true ->
    acquired_offset 0 (limiter (run_ops (before ++ OpCall c :: after) w)).
Proof.
  intros before after c w Hc.
  rewrite run_ops_app. cbn [run_ops step_op].
  apply run_ops_acquired_is_length.
  destruct c as [? | | | n | ? ? ? ? ? ?]; try discriminate Hc; cbn [step].
  - rewrite ReleaseAllBuffers_eq. reflexivity.
  - rewrite SetTotalBuffers_eq. reflexivity.
Qed.

Lemma counter_is_queue_length_after_clear_witness :
  acquired_offset 0
    (limiter (run_ops ([OpCall (CallHoldBuffer 1%positive)]
                       ++ OpCall (CallSetTotalBuffers 3)
                       :: [OpCall (CallHoldBuffer 2%positive);
                           OpArmNextFrame false scenario_oracle 15000000;
                           OpCall CallReleaseOldestBuffer;
                           OpCall (CallHoldBuffer 3%positive)])
                  scenario_world)).
Proof.
  apply (counter_is_queue_length_after_clear
           [OpCall (CallHoldBuffer 1%positive)]
           [OpCall (CallHoldBuffer 2%positive);
            OpArmNextFrame false scenario_oracle 15000000;
            OpCall CallReleaseOldestBuffer;
            OpCall (CallHoldBuffer 3%positive)]
           (CallSetTotalBuffers 3) scenario_world).
  reflexivity.
Defined.
